(** * unified-repo-analyzer, fixture [concurrent-3]: [utils.py] and [app.py]

    A shallow embedding of the two Python modules of the fixture and the
    properties of its specification.

    - [utils.py]: [format_response] and the class [DataProcessor];
    - [app.py]: the Flask views [hello] and [get_data].

    Python dictionaries are finite maps with string keys ([gmap string]), so
    that two dictionaries are equal exactly when they have the same keys with
    the same values, whatever the order of insertion: this is Python's [==].
    The outbound HTTP call of [get_data] is an effect; it is threaded through
    a state-and-exception monad whose state records the network and the
    calls of [requests.get] made so far. *)

From Stdlib Require Import ZArith.
From Stdlib.Floats Require Import SpecFloat.
From stdpp Require Import gmap strings list fin_maps pretty.

Local Set Warnings "-register-all".
Local Open Scope Z_scope.

(** ** Python values *)

(** The values the two modules handle: what [json.loads] produces and
    [jsonify] accepts. A float is an IEEE 754 datum; no function below looks
    inside one. *)
Inductive pyval : Type :=
  | PNone
  | PBool (b : bool)
  | PInt (n : Z)
  | PFloat (f : spec_float)
  | PStr (s : string)
  | PList (l : list pyval)
  | PDict (d : gmap string pyval).

(** Nesting depth of a value: scalars are at depth 0, a container is one
    deeper than its deepest element. *)
Fixpoint depth (v : pyval) : nat :=
  match v with
  | PList l => S (foldr (fun x acc => Nat.max (depth x) acc) 0%nat l)
  | PDict d => S (map_fold (fun _ x acc => Nat.max (depth x) acc) 0%nat d)
  | _ => 0%nat
  end.

(** A dictionary display [{k1: v1, ..., kn: vn}]: Python starts from the
    empty dictionary and stores the items from left to right, a later item
    replacing an earlier one with the same key. *)
Definition dict_display (items : list (string * pyval)) : gmap string pyval :=
  foldl (fun d kv => <[kv.1 := kv.2]> d) ∅ items.

(** [d[k]] read as an option, on any value: only a dictionary has keys. *)
Definition getitem (v : pyval) (k : string) : option pyval :=
  match v with
  | PDict d => d !! k
  | _ => None
  end.

(** [set(v.keys())] for a dictionary. *)
Definition keys (v : pyval) : option (gset string) :=
  match v with
  | PDict d => Some (dom d)
  | _ => None
  end.

(** ** utils.py *)

Module Utils.

(** [def format_response(data)] *)
Definition format_response (data : pyval) : pyval :=
  PDict (dict_display
           [ ("status", PStr "success");
             ("data", data);
             ("timestamp", PStr "2024-01-01T00:00:00Z") ]).

(** [class DataProcessor]: one attribute, [config]. The configuration is
    whatever the caller passes, of any type. *)
Record DataProcessor (C : Type) : Type := { config : C }.
Arguments config {C} _.

(** [DataProcessor.__init__(self, config)] *)
Definition init {C : Type} (config : C) : DataProcessor C :=
  {| config := config |}.

(** [DataProcessor.process(self, data)] *)
Definition process {C : Type} (self : DataProcessor C) (data : pyval) : pyval :=
  format_response data.

End Utils.

(** ** Exceptions *)

(** The exception classes that can reach [get_data]: Python's built-in ones
    and those of [requests.exceptions] (requests 2.27 and later, where the
    decoding error of [Response.json] is the library's own
    [JSONDecodeError]). *)
Inductive exc_class : Type :=
  | BaseException | Exception | KeyboardInterrupt
  | OSError | ValueError | TypeError | RuntimeError | RecursionError
  | json_JSONDecodeError            (* json.JSONDecodeError *)
  | urllib3_HTTPError               (* urllib3.exceptions.HTTPError *)
  | RequestException | InvalidJSONError | JSONDecodeError | HTTPError
  | ConnectionError | ProxyError | SSLError
  | Timeout | ConnectTimeout | ReadTimeout
  | URLRequired | TooManyRedirects
  | MissingSchema | InvalidSchema | InvalidURL | InvalidHeader | InvalidProxyURL
  | ChunkedEncodingError | ContentDecodingError | StreamConsumedError
  | RetryError | UnrewindableBodyError.

#[global] Instance exc_class_eq_dec : EqDecision exc_class.
Proof. solve_decision. Defined.

(** [cls.__bases__] *)
Definition bases (c : exc_class) : list exc_class :=
  match c with
  | BaseException => []
  | Exception | KeyboardInterrupt => [BaseException]
  | OSError | ValueError | TypeError | RuntimeError
  | urllib3_HTTPError => [Exception]
  | RecursionError => [RuntimeError]
  | json_JSONDecodeError => [ValueError]
  | RequestException => [OSError]
  | InvalidJSONError | HTTPError | ConnectionError | Timeout | URLRequired
  | TooManyRedirects | ChunkedEncodingError | RetryError
  | UnrewindableBodyError => [RequestException]
  | JSONDecodeError => [InvalidJSONError; json_JSONDecodeError]
  | ProxyError | SSLError => [ConnectionError]
  | ConnectTimeout => [ConnectionError; Timeout]
  | ReadTimeout => [Timeout]
  | MissingSchema | InvalidSchema | InvalidURL | InvalidHeader =>
      [RequestException; ValueError]
  | InvalidProxyURL => [InvalidURL]
  | ContentDecodingError => [RequestException; urllib3_HTTPError]
  | StreamConsumedError => [RequestException; TypeError]
  end.

(** [issubclass(c, d)], climbing at most [fuel] levels of the hierarchy. *)
Fixpoint issubclass_upto (fuel : nat) (c d : exc_class) : bool :=
  bool_decide (c = d) ||
  match fuel with
  | O => false
  | S fuel' => existsb (fun b => issubclass_upto fuel' b d) (bases c)
  end.

(** No class above is more than six steps below [BaseException]. *)
Definition issubclass (c d : exc_class) : bool := issubclass_upto 6 c d.

(** A raised exception: its class and the text [str(e)] yields. *)
Record pyexc : Type := { exc_type : exc_class; exc_text : string }.

(** [str(e)] *)
Definition str (e : pyexc) : string := exc_text e.

(** [isinstance(e, cls)] *)
Definition isinstance (e : pyexc) (cls : exc_class) : bool :=
  issubclass (exc_type e) cls.

(** The outcome of evaluating a Python expression: a value, or an exception
    on its way up. *)
Inductive result (A : Type) : Type :=
  | Ok (a : A)
  | Raise (e : pyexc).
Arguments Ok {A} a.
Arguments Raise {A} e.

(** ** The upstream world and the effect monad *)

(** What the JSON decoder ([json.loads]) makes of a response body: the value
    it denotes; the message of the [json.JSONDecodeError] it raises on text
    that is not JSON; or an exception of another kind that it raises before
    it is through (a [RecursionError] on brackets nested too deep, a
    [ValueError] on an integer literal with too many digits). *)
Inductive json_text : Type :=
  | Valid (v : pyval)
  | Invalid (errmsg : string)
  | Overwhelms (e : pyexc).

(** [requests.models.Response], the attributes the handler's calls read. *)
Record Response : Type :=
  { status_code : Z; reason : string; url : string; content : json_text }.

(** The world a handler runs in: [net n u] is what the [n]-th call of
    [requests.get] in the process, made with the URL [u], comes back with (the
    final response, after the redirects the library followed on its own, or
    the exception the library raises); [sent] lists the URLs [requests.get]
    was called with so far, one entry per call. It is a log of calls, not of
    the HTTP requests on the wire: one call may send several. *)
Record world : Type :=
  { net : nat -> string -> result Response; sent : list string }.

(** Computations that may raise and may talk to the network. *)
Definition M (A : Type) : Type := world -> result A * world.

Definition ret {A : Type} (a : A) : M A := fun w => (Ok a, w).

Definition raise {A : Type} (e : pyexc) : M A := fun w => (Raise e, w).

Definition bind {A B : Type} (m : M A) (f : A -> M B) : M B :=
  fun w =>
    match m w with
    | (Ok a, w') => f a w'
    | (Raise e, w') => (Raise e, w')
    end.

Declare Scope py_scope.
Delimit Scope py_scope with py.
Notation "x <- m ;; k" := (bind m (fun x => k))
  (at level 100, m at next level, right associativity) : py_scope.
Notation "m ;;; k" := (bind m (fun _ => k))
  (at level 100, right associativity) : py_scope.
Local Open Scope py_scope.

(** [try: body  except cls as e: handler(e)]: an exception of the body is
    handled when it is an instance of [cls], and keeps going up otherwise. *)
Definition try_except {A : Type} (body : M A) (cls : exc_class)
    (handler : pyexc -> M A) : M A :=
  fun w =>
    match body w with
    | (Ok a, w') => (Ok a, w')
    | (Raise e, w') =>
        if isinstance e cls then handler e w' else (Raise e, w')
    end.

(** ** The requests library, as [app.py] uses it *)

Module Requests.

(** [requests.get(url)]: one call of the library. The call is logged and
    the network answers. *)
Definition get (u : string) : M Response :=
  fun w => (net w (length (sent w)) u,
            {| net := net w; sent := sent w ++ [u] |}).

(** [Response.raise_for_status()]: an [HTTPError] for a 4xx or a 5xx
    status, nothing otherwise. *)
Definition raise_for_status (r : Response) : M unit :=
  if bool_decide (400 <= status_code r < 500) then
    raise {| exc_type := HTTPError;
             exc_text := pretty (status_code r) +:+ " Client Error: "
                         +:+ reason r +:+ " for url: " +:+ url r |}
  else if bool_decide (500 <= status_code r < 600) then
    raise {| exc_type := HTTPError;
             exc_text := pretty (status_code r) +:+ " Server Error: "
                         +:+ reason r +:+ " for url: " +:+ url r |}
  else ret tt.

(** [Response.json()]: the decoded body. The one [except] clause of the
    method turns a [json.JSONDecodeError] of the decoder into the library's
    [JSONDecodeError] with the same message; any other exception of the
    decoder goes up as it is. *)
Definition json (r : Response) : M pyval :=
  match content r with
  | Valid v => ret v
  | Invalid errmsg => raise {| exc_type := JSONDecodeError; exc_text := errmsg |}
  | Overwhelms e =>
      if isinstance e json_JSONDecodeError
      then raise {| exc_type := JSONDecodeError; exc_text := str e |}
      else raise e
  end.

End Requests.

(** ** Flask, as [app.py] uses it *)

Module Flask.

(** The body of an HTTP response of the application. *)
Inductive payload : Type :=
  | JsonPayload (v : pyval)     (* a JSON document *)
  | ErrorPage                   (* the framework's page for an HTTP error *)
  | NoBody.

(** [flask.Response] *)
Record response : Type := { status : Z; body : payload }.

(** [jsonify(v)]: a response with status 200 whose body is the JSON
    document of [v]. *)
Definition jsonify (v : pyval) : response :=
  {| status := 200; body := JsonPayload v |}.

(** What a view function may return: a response, or a pair of a response
    and a status code. *)
Inductive view_rv : Type :=
  | Rv (r : response)
  | RvStatus (r : response) (code : Z).

(** [Flask.make_response(rv)]: the status of a pair overrides the status of
    its response. *)
Definition make_response (rv : view_rv) : response :=
  match rv with
  | Rv r => r
  | RvStatus r code => {| status := code; body := body r |}
  end.

Inductive http_method : Type :=
  | GET | HEAD | OPTIONS | POST | PUT | DELETE | PATCH.

(** An incoming request: the query string and the headers are kept apart
    from the path, which alone is matched against the routing table. *)
Record request : Type :=
  { method : http_method;
    path : string;
    args : list (string * string);
    headers : list (string * string) }.

(** The application object: its routing table, one view per rule. *)
Record app_t : Type := { url_map : list (string * M view_rv) }.

(** [Flask(__name__)] *)
Definition new : app_t := {| url_map := [] |}.

(** [@app.route(rule)] on [view]. *)
Definition route (rule : string) (view : M view_rv) (a : app_t) : app_t :=
  {| url_map := url_map a ++ [(rule, view)] |}.

(** The view of the first rule equal to the path. *)
Fixpoint match_rule (rules : list (string * M view_rv)) (p : string)
    : option (M view_rv) :=
  match rules with
  | [] => None
  | (rule, view) :: rest =>
      if bool_decide (rule = p) then Some view else match_rule rest p
  end.

(** One request through the application, for a path that is one of the
    registered rules. A rule registered without [methods] answers GET (and
    HEAD, without a body; OPTIONS is answered by the framework), and another
    method gets 405. The application runs as [app.py] starts it, with
    [debug=True]: an exception the view does not handle is not turned into a
    response, it goes up to the server. For a path that equals no rule the
    definition gives the plain 404 of the framework; the redirect of a path
    with doubled slashes and the rule for static files, which Flask adds on
    its own, are left out, and nothing below is stated about such paths. *)
Definition wsgi_app (a : app_t) (req : request) : M response :=
  match match_rule (url_map a) (path req) with
  | None =>
      ret {| status := 404;
             body := match method req with HEAD => NoBody | _ => ErrorPage end |}
  | Some view =>
      match method req with
      | GET => rv <- view;; ret (make_response rv)
      | HEAD =>
          rv <- view;;
          ret {| status := status (make_response rv); body := NoBody |}
      | OPTIONS => ret {| status := 200; body := NoBody |}
      | _ => ret {| status := 405; body := ErrorPage |}
      end
  end.

End Flask.

(** ** app.py *)

Module App.
Import Flask.

(** [def hello()] *)
Definition hello : M view_rv :=
  ret (Rv (jsonify (PDict (dict_display [("message", PStr "Hello from Python!")])))).

(** [def get_data()] *)
Definition get_data : M view_rv :=
  try_except
    (response <- Requests.get "https://api.example.com/data";;
     Requests.raise_for_status response;;;
     decoded <- Requests.json response;;
     ret (Rv (jsonify decoded)))
    RequestException
    (fun e =>
       ret (RvStatus (jsonify (PDict (dict_display [("error", PStr (str e))]))) 500)).

(** [app = Flask(__name__)] with its two routes. *)
Definition app : app_t :=
  route "/data" get_data (route "/" hello new).

End App.

(** ** Scenarios used to exercise the statements *)

(** The URL [get_data] requests. *)
Definition data_url : string := "https://api.example.com/data".

(** An incoming GET for [p] with the given query parameters and headers. *)
Definition get_request (p : string) (a h : list (string * string)) : Flask.request :=
  {| Flask.method := Flask.GET; Flask.path := p; Flask.args := a; Flask.headers := h |}.

(** A world whose every outbound call has the same outcome. *)
Definition always (o : result Response) : world :=
  {| net := fun _ _ => o; sent := [] |}.

(** A world whose first outbound call has outcome [o] and every later one
    outcome [o']: a second attempt would see something else. *)
Definition first_then (o o' : result Response) : world :=
  {| net := fun n _ => match n with O => o | S _ => o' end; sent := [] |}.

(** The JSON object [{"foo": 1}]. *)
Definition foo1 : pyval := PDict (dict_display [("foo", PInt 1)]).

Definition upstream_ok : Response :=
  {| status_code := 200; reason := "OK"; url := data_url; content := Valid foo1 |}.

Definition upstream_not_found : Response :=
  {| status_code := 404; reason := "Not Found"; url := data_url;
     content := Valid (PDict ∅) |}.

Definition upstream_garbled : Response :=
  {| status_code := 200; reason := "OK"; url := data_url;
     content := Invalid "Expecting value: line 1 column 1 (char 0)" |}.

(** A refused connection, as the client library reports it. *)
Definition refused : pyexc :=
  {| exc_type := ConnectionError; exc_text := "Connection refused" |}.

(** A connection error raised without arguments, as a test double does with
    [side_effect=requests.exceptions.ConnectionError()]: its [str] is the
    empty string. *)
Definition refused_silently : pyexc :=
  {| exc_type := ConnectionError; exc_text := "" |}.

(** The upstream call of [get_data], started in world [w], fails with the
    request exception [e]: either the GET itself raises it, or the GET
    returns a response whose status makes [raise_for_status] raise it. *)
Inductive upstream_fails (w : world) (e : pyexc) : Prop :=
  | get_raises :
      net w (length (sent w)) data_url = Raise e ->
      isinstance e RequestException = true ->
      upstream_fails w e
  | status_raises (r : Response) (w1 w2 : world) :
      net w (length (sent w)) data_url = Ok r ->
      Requests.raise_for_status r w1 = (Raise e, w2) ->
      upstream_fails w e.

(** The world after one call of [requests.get] with [data_url]. *)
Definition after_one_get (w : world) : world :=
  {| net := net w; sent := sent w ++ [data_url] |}.

(** Ctrl-C while the view waits for the upstream: not an error of the client
    library. *)
Definition interrupted : pyexc :=
  {| exc_type := KeyboardInterrupt; exc_text := "" |}.

(** A 503 of the upstream that comes with a JSON document of its own. *)
Definition upstream_unavailable : Response :=
  {| status_code := 503; reason := "Service Unavailable"; url := data_url;
     content := Valid (PDict (dict_display [("detail", PStr "maintenance")])) |}.

(** The same 503 with a body that is not JSON. *)
Definition upstream_unavailable_html : Response :=
  {| status_code := 503; reason := "Service Unavailable"; url := data_url;
     content := Invalid "Expecting value: line 1 column 1 (char 0)" |}.

(** A body of 100000 opening brackets, with status 200: not JSON, and the
    decoder gives up with a [RecursionError] before it can say so. *)
Definition too_deep : pyexc :=
  {| exc_type := RecursionError;
     exc_text := "maximum recursion depth exceeded while decoding a JSON array from a unicode string" |}.

Definition upstream_too_deep : Response :=
  {| status_code := 200; reason := "OK"; url := data_url;
     content := Overwhelms too_deep |}.

(** A body that starts with an integer of 5000 digits, with status 200: the
    decoder stops at the conversion of the integer, with a [ValueError]. *)
Definition too_long : pyexc :=
  {| exc_type := ValueError;
     exc_text := "Exceeds the limit (4300 digits) for integer string conversion: value has 5000 digits; use sys.set_int_max_str_digits() to increase the limit" |}.

Definition upstream_too_long : Response :=
  {| status_code := 200; reason := "OK"; url := data_url;
     content := Overwhelms too_long |}.

(** * Properties *)

Import Utils.

(** ** Values *)

Lemma map_fold_max_lookup {A : Type} (g : A -> nat) (d : gmap string A) k v :
  d !! k = Some v ->
  (g v <= map_fold (fun _ x acc => Nat.max (g x) acc) 0%nat d)%nat.
Proof.
  revert k v. induction d as [|i x m Hi IH] using map_ind; intros k v Hk.
  - by rewrite lookup_empty in Hk.
  - rewrite map_fold_insert_L; [| intros; lia | done].
    destruct (decide (i = k)) as [->|Hne].
    + rewrite lookup_insert_eq in Hk. injection Hk as ->. lia.
    + rewrite lookup_insert_ne in Hk by done. specialize (IH _ _ Hk). lia.
Qed.

(** An item of a dictionary is strictly shallower than the dictionary. *)
Lemma depth_getitem v k x : getitem v k = Some x -> (depth x < depth v)%nat.
Proof.
  destruct v; simpl; try discriminate. intros H.
  apply (map_fold_max_lookup depth) in H. lia.
Qed.

(** No value is its own item: Python values built by the decoder and by
    dictionary displays are finite trees. *)
Lemma getitem_irrefl v k : getitem v k <> Some v.
Proof. intros H. apply depth_getitem in H. lia. Qed.

(** ** utils.py *)

(** The three items of the envelope, read back one key at a time. *)
Lemma format_response_getitem X k :
  getitem (format_response X) k =
    if decide (k = "status") then Some (PStr "success")
    else if decide (k = "data") then Some X
    else if decide (k = "timestamp") then Some (PStr "2024-01-01T00:00:00Z")
    else None.
Proof.
  unfold format_response, dict_display; simpl.
  repeat case_decide; subst; simplify_map_eq; done.
Qed.

(** The envelope as the dictionary the specification writes. *)
Lemma format_response_unfold X :
  format_response X =
    PDict (<["status" := PStr "success"]>
           (<["data" := X]>
            (<["timestamp" := PStr "2024-01-01T00:00:00Z"]> ∅))).
Proof.
  unfold format_response, dict_display; simpl. apply (f_equal PDict).
  apply map_eq; intros k.
  destruct (decide (k = "status")) as [->|]; [by simplify_map_eq|].
  destruct (decide (k = "data")) as [->|]; [by simplify_map_eq|].
  destruct (decide (k = "timestamp")) as [->|]; by simplify_map_eq.
Qed.

Lemma format_response_keys X :
  keys (format_response X) = Some ({[ "status"; "data"; "timestamp" ]} : gset string).
Proof.
  unfold format_response, dict_display; simpl. apply (f_equal Some).
  rewrite !dom_insert_L, dom_empty_L. set_solver.
Qed.

Lemma format_response_size X :
  exists d, format_response X = PDict d /\ size d = 3%nat.
Proof.
  eexists; split; [reflexivity|]. unfold dict_display; simpl.
  rewrite !map_size_insert_None; [by rewrite map_size_empty | by simplify_map_eq ..].
Qed.

(** C1. For every value [X], [format_response X] is exactly the dictionary
    [{'status': 'success', 'data': X, 'timestamp': '2024-01-01T00:00:00Z'}]:
    it has these three items and no other key. It is deterministic: equal
    inputs give equal envelopes, the timestamp being the literal string. *)
Theorem format_response_exact (X : pyval) :
  format_response X =
    PDict (<["status" := PStr "success"]>
           (<["data" := X]>
            (<["timestamp" := PStr "2024-01-01T00:00:00Z"]> ∅)))
  /\ getitem (format_response X) "status" = Some (PStr "success")
  /\ getitem (format_response X) "data" = Some X
  /\ getitem (format_response X) "timestamp" = Some (PStr "2024-01-01T00:00:00Z")
  /\ (forall k, k <> "status" -> k <> "data" -> k <> "timestamp" ->
        getitem (format_response X) k = None)
  /\ (forall Y, Y = X -> format_response Y = format_response X).
Proof.
  split; [apply format_response_unfold|].
  repeat split; try (rewrite format_response_getitem; reflexivity).
  - intros k H1 H2 H3. rewrite format_response_getitem.
    repeat case_decide; congruence.
  - intros Y ->. reflexivity.
Qed.

(** The envelope of an envelope differs from the envelope. *)
Lemma format_response_not_fixpoint X : format_response X <> X.
Proof.
  intros H. apply (getitem_irrefl X "data").
  rewrite <- H at 1. by rewrite format_response_getitem.
Qed.

(** C2, as the specification states it, fails already on [None]: wrapping
    the envelope of [None] gives an envelope whose data is an envelope. *)
Lemma format_response_not_idempotent_None :
  format_response (format_response PNone) <> format_response PNone.
Proof.
  intros H.
  assert (Hd : getitem (format_response (format_response PNone)) "data"
               = getitem (format_response PNone) "data") by (by rewrite H).
  rewrite !format_response_getitem in Hd. simpl in Hd. discriminate.
Qed.

(** C2, amended. [format_response] is not idempotent. For every value [X],
    [format_response (format_response X)] is the envelope whose data is the
    whole envelope [format_response X], one level deeper, and it is never
    equal to [format_response X]. *)
Theorem format_response_nests (X : pyval) :
  format_response (format_response X) =
    PDict (<["status" := PStr "success"]>
           (<["data" := format_response X]>
            (<["timestamp" := PStr "2024-01-01T00:00:00Z"]> ∅)))
  /\ getitem (format_response (format_response X)) "data" = Some (format_response X)
  /\ format_response (format_response X) <> format_response X.
Proof.
  split; [apply format_response_unfold|].
  split; [by rewrite format_response_getitem|].
  apply format_response_not_fixpoint.
Qed.

(** C3. For every configuration and every value [X], a processor built on
    that configuration (indeed any processor) maps [X] to
    [format_response X]; two processors built on different configurations,
    even of different types, give the same result. *)
Theorem process_is_format_response (C : Type) (cfg : C) (X : pyval) :
  process (init cfg) X = format_response X
  /\ (forall self : DataProcessor C, process self X = format_response X)
  /\ (forall (C' : Type) (cfg' : C'), process (init cfg') X = process (init cfg) X).
Proof. repeat split. Qed.

(** C8. For every input, the envelope [format_response] returns, and so the
    one [DataProcessor.process] returns, is a dictionary whose key set is
    exactly ['status'], ['data'], ['timestamp']: three keys. *)
Theorem envelope_has_exactly_three_keys (C : Type) (self : DataProcessor C) (X : pyval) :
  keys (format_response X) = Some ({[ "status"; "data"; "timestamp" ]} : gset string)
  /\ keys (process self X) = Some ({[ "status"; "data"; "timestamp" ]} : gset string)
  /\ (exists d, format_response X = PDict d /\ size d = 3%nat)
  /\ (exists d, process self X = PDict d /\ size d = 3%nat).
Proof.
  unfold process.
  repeat split; auto using format_response_keys, format_response_size.
Qed.

(** C9. [format_response] is total and pure: for every input it returns an
    envelope, that is a dictionary with exactly the keys ['status'], ['data']
    and ['timestamp'], holding ['success'], the input and the literal
    timestamp; called as a computation in any world it raises nothing, leaves
    the world as it was, and its result is that envelope, a function of the
    argument alone. *)
Theorem format_response_total_pure (X : pyval) :
  (exists d : gmap string pyval,
      format_response X = PDict d
      /\ dom d = ({[ "status"; "data"; "timestamp" ]} : gset string)
      /\ d !! "status" = Some (PStr "success")
      /\ d !! "data" = Some X
      /\ d !! "timestamp" = Some (PStr "2024-01-01T00:00:00Z"))
  /\ (forall w : world,
        ret (format_response X) w =
          (Ok (PDict (<["status" := PStr "success"]>
                      (<["data" := X]>
                       (<["timestamp" := PStr "2024-01-01T00:00:00Z"]> ∅)))), w))
  /\ (forall (Y : pyval) (w1 w2 : world),
        Y = X ->
        fst (ret (format_response Y) w1) = fst (ret (format_response X) w2)).
Proof.
  split; [|split].
  - eexists; split; [reflexivity|].
    pose proof (format_response_keys X) as Hk.
    pose proof (format_response_getitem X) as Hg.
    unfold format_response in Hk, Hg. simpl in Hk, Hg.
    split; [congruence|].
    split; [exact (Hg "status")|]. split; [exact (Hg "data")|exact (Hg "timestamp")].
  - intros w. unfold ret. by rewrite format_response_unfold.
  - by intros Y w1 w2 ->.
Qed.

(** ** The exception hierarchy *)

(** Every connection error of the client library is a request exception. *)
Lemma connection_error_is_request_exception e :
  isinstance e ConnectionError = true -> isinstance e RequestException = true.
Proof.
  unfold isinstance. destruct (exc_type e); vm_compute; congruence.
Qed.

(** So is the decoding error of [Response.json], whatever its message. *)
Lemma decoding_error_is_request_exception msg :
  isinstance {| exc_type := JSONDecodeError; exc_text := msg |} RequestException = true.
Proof. reflexivity. Qed.

(** The decoder's own error class is not: only the library's wrapper is
    caught by [get_data]. *)
Example json_error_is_not_request_exception :
  issubclass json_JSONDecodeError RequestException = false.
Proof. reflexivity. Qed.

(** ** The requests library *)

(** [raise_for_status] neither reads nor changes the world. *)
Lemma raise_for_status_pure r w1 w2 o :
  Requests.raise_for_status r w1 = (o, w2) ->
  w2 = w1 /\ forall w, Requests.raise_for_status r w = (o, w).
Proof.
  unfold Requests.raise_for_status, raise, ret.
  repeat case_bool_decide; intros [= <- <-]; split; reflexivity.
Qed.

(** What it raises is an [HTTPError]. *)
Lemma raise_for_status_raises_http_error r w1 w2 e :
  Requests.raise_for_status r w1 = (Raise e, w2) -> exc_type e = HTTPError.
Proof.
  unfold Requests.raise_for_status, raise, ret.
  repeat case_bool_decide; intros [= <- <-]; reflexivity.
Qed.

(** It raises nothing on a 2xx status. *)
Lemma raise_for_status_2xx r w :
  200 <= status_code r < 300 -> Requests.raise_for_status r w = (Ok tt, w).
Proof.
  intros H. unfold Requests.raise_for_status.
  rewrite !bool_decide_eq_false_2 by lia. reflexivity.
Qed.

(** ** app.py: the views *)

Import Flask App.

(** The body of the 500 response for the exception [e]. *)
Lemma error_body_unfold e :
  PDict (dict_display [("error", PStr (str e))]) = PDict {[ "error" := PStr (str e) ]}.
Proof. reflexivity. Qed.

Lemma get_data_get_raises w e :
  net w (length (sent w)) data_url = Raise e ->
  isinstance e RequestException = true ->
  get_data w =
    (Ok (RvStatus (jsonify (PDict {[ "error" := PStr (str e) ]})) 500), after_one_get w).
Proof.
  intros Hnet Hcls. unfold get_data, try_except, bind, Requests.get.
  fold data_url. rewrite Hnet, Hcls. reflexivity.
Qed.

Lemma get_data_status_raises w r w1 w2 e :
  net w (length (sent w)) data_url = Ok r ->
  Requests.raise_for_status r w1 = (Raise e, w2) ->
  get_data w =
    (Ok (RvStatus (jsonify (PDict {[ "error" := PStr (str e) ]})) 500), after_one_get w).
Proof.
  intros Hnet Hst.
  pose proof (raise_for_status_raises_http_error _ _ _ _ Hst) as Hty.
  apply raise_for_status_pure in Hst as [_ Hst].
  unfold get_data, try_except, bind, Requests.get.
  fold data_url. rewrite Hnet, Hst.
  unfold isinstance. rewrite Hty. reflexivity.
Qed.

(** An exception of the GET that is not a request exception is not handled:
    it leaves the view. *)
Lemma get_data_other_exception w e :
  net w (length (sent w)) data_url = Raise e ->
  isinstance e RequestException = false ->
  get_data w = (Raise e, after_one_get w).
Proof.
  intros Hnet Hcls. unfold get_data, try_except, bind, Requests.get.
  fold data_url. rewrite Hnet, Hcls. reflexivity.
Qed.


Lemma get_data_decoding_error w r msg :
  net w (length (sent w)) data_url = Ok r ->
  200 <= status_code r < 300 ->
  content r = Invalid msg ->
  get_data w =
    (Ok (RvStatus (jsonify (PDict {[ "error" := PStr msg ]})) 500), after_one_get w).
Proof.
  intros Hnet Hst HB. unfold get_data, try_except, bind, Requests.get.
  fold data_url. rewrite Hnet, raise_for_status_2xx by done.
  unfold Requests.json. rewrite HB. reflexivity.
Qed.

(** ** app.py: the routes *)

(** A GET for [/data] runs [get_data] and finishes its return value. *)
Lemma wsgi_app_data a h w :
  wsgi_app app (get_request "/data" a h) w =
    (rv <- get_data;; ret (make_response rv)) w.
Proof. reflexivity. Qed.

Lemma wsgi_app_data_ok a h w rv w' :
  get_data w = (Ok rv, w') ->
  wsgi_app app (get_request "/data" a h) w = (Ok (make_response rv), w').
Proof. intros H. rewrite wsgi_app_data. unfold bind. rewrite H. reflexivity. Qed.

(** C4. If the outbound GET raises a request exception [e], or returns a
    response whose status [raise_for_status] turns into the exception [e],
    then [get_data] returns the pair of the JSON body [{'error': str(e)}] and
    500, and the response to [GET /data] has status 500 and exactly that
    body. The exception is handled by the one [try] of the view, and exactly
    one call of [requests.get] has been made when the view returns: no
    retry. *)
Theorem get_data_upstream_failure (w : world) (e : pyexc)
    (a h : list (string * string)) :
  upstream_fails w e ->
  get_data w =
    (Ok (RvStatus (jsonify (PDict {[ "error" := PStr (str e) ]})) 500),
     after_one_get w)
  /\ wsgi_app app (get_request "/data" a h) w =
       (Ok {| status := 500; body := JsonPayload (PDict {[ "error" := PStr (str e) ]}) |},
        after_one_get w)
  /\ sent (snd (wsgi_app app (get_request "/data" a h) w)) = sent w ++ [data_url].
Proof.
  intros Hfail.
  assert (Hv : get_data w =
    (Ok (RvStatus (jsonify (PDict {[ "error" := PStr (str e) ]})) 500),
     after_one_get w)).
  { destruct Hfail as [Hnet Hcls | r w1 w2 Hnet Hst].
    - by apply get_data_get_raises.
    - by eapply get_data_status_raises. }
  split; [exact Hv|].
  rewrite (wsgi_app_data_ok a h w _ _ Hv). split; reflexivity.
Qed.

(** C4 at a refused connection, in a world where a second attempt would have
    succeeded: the answer is still the 500 of the first attempt. *)
Lemma get_data_upstream_failure_witness :
  upstream_fails (first_then (Raise refused) (Ok upstream_ok)) refused
  /\ wsgi_app app (get_request "/data" [] [])
       (first_then (Raise refused) (Ok upstream_ok)) =
       (Ok {| status := 500;
              body := JsonPayload (PDict {[ "error" := PStr "Connection refused" ]}) |},
        after_one_get (first_then (Raise refused) (Ok upstream_ok))).
Proof.
  assert (H : upstream_fails (first_then (Raise refused) (Ok upstream_ok)) refused)
    by (apply get_raises; reflexivity).
  split; [exact H|].
  exact (proj1 (proj2 (get_data_upstream_failure _ refused [] [] H))).
Defined.

(** The same through [raise_for_status]: a 404 of the upstream. *)
Example get_data_upstream_404 :
  wsgi_app app (get_request "/data" [] []) (always (Ok upstream_not_found)) =
    (Ok {| status := 500;
           body := JsonPayload (PDict {[ "error" :=
             PStr "404 Client Error: Not Found for url: https://api.example.com/data" ]}) |},
     after_one_get (always (Ok upstream_not_found))).
Proof. vm_compute. reflexivity. Qed.



(** C6. Every GET for [/], whatever its query parameters and headers and
    whatever the state of the world, is answered with status 200 and the
    body [{"message": "Hello from Python!"}]; the view calls nothing
    upstream. *)
Theorem hello_always_greets (a h : list (string * string)) (w : world) :
  hello w =
    (Ok (Rv (jsonify (PDict {[ "message" := PStr "Hello from Python!" ]}))), w)
  /\ wsgi_app app (get_request "/" a h) w =
       (Ok {| status := 200;
              body := JsonPayload (PDict {[ "message" := PStr "Hello from Python!" ]}) |},
        w).
Proof. split; reflexivity. Qed.

(** C7, as the specification states it, fails for a connection error whose
    text is empty, which is what [ConnectionError()] without arguments is:
    the response has status 500 and an ['error'] key, but the value under it
    is the empty string. *)
Lemma get_data_silent_connection_error :
  net (always (Raise refused_silently)) 0 data_url = Raise refused_silently
  /\ isinstance refused_silently ConnectionError = true
  /\ wsgi_app app (get_request "/data" [] []) (always (Raise refused_silently)) =
       (Ok {| status := 500; body := JsonPayload (PDict {[ "error" := PStr "" ]}) |},
        after_one_get (always (Raise refused_silently)))
  /\ ~ (exists s : string,
          getitem (PDict {[ "error" := PStr "" ]}) "error" = Some (PStr s) /\ s <> "").
Proof.
  repeat split.
  intros (s & Hs & Hne). apply Hne.
  simpl in Hs. rewrite lookup_singleton_eq in Hs. congruence.
Qed.

(** C7, amended. Whenever the upstream call fails with a connection error
    [e], the response to [GET /data] has status 500 and a body with an
    ['error'] key whose value is the string [str(e)]; that string is
    non-empty exactly when the text of the exception is. *)
Theorem get_data_connection_error (w : world) (e : pyexc)
    (a h : list (string * string)) :
  net w (length (sent w)) data_url = Raise e ->
  isinstance e ConnectionError = true ->
  exists (resp : response) (w' : world) (d : gmap string pyval),
    wsgi_app app (get_request "/data" a h) w = (Ok resp, w')
    /\ status resp = 500
    /\ body resp = JsonPayload (PDict d)
    /\ d !! "error" = Some (PStr (str e))
    /\ (forall s : string, d !! "error" = Some (PStr s) -> (s <> "" <-> str e <> "")).
Proof.
  intros Hnet Hcls.
  pose proof (get_data_get_raises w e Hnet
                (connection_error_is_request_exception e Hcls)) as Hv.
  eexists _, _, _. split; [exact (wsgi_app_data_ok a h w _ _ Hv)|].
  simpl. rewrite lookup_singleton_eq.
  split; [done|]. split; [done|]. split; [done|].
  intros s [= <-]. tauto.
Qed.

(** C7, amended, at a refused connection that says so. *)
Lemma get_data_connection_error_witness :
  exists (resp : response) (w' : world) (d : gmap string pyval),
    wsgi_app app (get_request "/data" [] []) (always (Raise refused)) = (Ok resp, w')
    /\ status resp = 500
    /\ body resp = JsonPayload (PDict d)
    /\ d !! "error" = Some (PStr "Connection refused")
    /\ (forall s : string, d !! "error" = Some (PStr s) -> (s <> "" <-> str refused <> "")).
Proof.
  apply (get_data_connection_error (always (Raise refused)) refused);
    reflexivity.
Defined.

(** C10, as stated, fails on a body that is not JSON and that the decoder
    does not reject with its own error: on 100000 opening brackets, with
    status 200, the decoder raises a [RecursionError], [Response.json] lets it
    through, it is not a request exception, and it leaves the view
    unhandled: no response, with status 500 or any other, is produced. *)
Lemma get_data_decoder_overwhelmed :
  net (always (Ok upstream_too_deep)) 0 data_url = Ok upstream_too_deep
  /\ 200 <= status_code upstream_too_deep < 300
  /\ (forall B, content upstream_too_deep <> Valid B)
  /\ isinstance too_deep RequestException = false
  /\ wsgi_app app (get_request "/data" [] []) (always (Ok upstream_too_deep)) =
       (Raise too_deep, after_one_get (always (Ok upstream_too_deep)))
  /\ ~ (exists (resp : response) (w' : world),
          wsgi_app app (get_request "/data" [] []) (always (Ok upstream_too_deep)) =
            (Ok resp, w')).
Proof.
  split; [reflexivity|]. split; [simpl; lia|]. split; [discriminate|].
  split; [reflexivity|]. split; [reflexivity|].
  intros (resp & w' & H). discriminate H.
Qed.

(** C10, amended. If the outbound GET returns a response with a 2xx status
    and the decoder rejects its body as JSON text, [Response.json] raises the
    library's [JSONDecodeError] with the decoder's message; that class is a
    request exception, so the [except] clause of the view handles it like a
    network failure: the response to [GET /data] has status 500 and body
    [{'error': <the decoder's message>}]. *)
Theorem get_data_undecodable_body (w : world) (r : Response) (msg : string)
    (a h : list (string * string)) :
  net w (length (sent w)) data_url = Ok r ->
  200 <= status_code r < 300 ->
  content r = Invalid msg ->
  Requests.json r (after_one_get w) =
    (Raise {| exc_type := JSONDecodeError; exc_text := msg |}, after_one_get w)
  /\ issubclass JSONDecodeError RequestException = true
  /\ wsgi_app app (get_request "/data" a h) w =
       (Ok {| status := 500; body := JsonPayload (PDict {[ "error" := PStr msg ]}) |},
        after_one_get w).
Proof.
  intros Hnet Hst HB. split; [|split; [reflexivity|]].
  - unfold Requests.json. rewrite HB. reflexivity.
  - exact (wsgi_app_data_ok a h w _ _ (get_data_decoding_error w r msg Hnet Hst HB)).
Qed.

(** C10, amended, at a 200 response whose body is empty. *)
Lemma get_data_undecodable_body_witness :
  wsgi_app app (get_request "/data" [] []) (always (Ok upstream_garbled)) =
    (Ok {| status := 500;
           body := JsonPayload
                     (PDict {[ "error" := PStr "Expecting value: line 1 column 1 (char 0)" ]}) |},
     after_one_get (always (Ok upstream_garbled))).
Proof.
  refine (proj2 (proj2 (get_data_undecodable_body (always (Ok upstream_garbled))
                          upstream_garbled _ [] [] _ _ _)));
    [reflexivity | simpl; lia | reflexivity].
Defined.


(** * Further properties of the views *)

Lemma isinstance_http_error txt :
  isinstance {| exc_type := HTTPError; exc_text := txt |} RequestException = true.
Proof. reflexivity. Qed.

(** The view, run in any world: one GET, then the branch its outcome selects. *)
Lemma get_data_run w :
  get_data w =
    (match net w (length (sent w)) data_url with
     | Raise e =>
         if isinstance e RequestException
         then Ok (RvStatus (jsonify (PDict {[ "error" := PStr (str e) ]})) 500)
         else Raise e
     | Ok r =>
         match fst (Requests.raise_for_status r w) with
         | Raise e => Ok (RvStatus (jsonify (PDict {[ "error" := PStr (str e) ]})) 500)
         | Ok _ =>
             match fst (Requests.json r w) with
             | Ok B => Ok (Rv (jsonify B))
             | Raise e =>
                 if isinstance e RequestException
                 then Ok (RvStatus (jsonify (PDict {[ "error" := PStr (str e) ]})) 500)
                 else Raise e
             end
         end
     end, after_one_get w).
Proof.
  unfold get_data, try_except, bind, Requests.get. fold data_url.
  destruct (net w (length (sent w)) data_url) as [r|e]; [|by destruct (isinstance _ _)].
  unfold Requests.raise_for_status, Requests.json, raise, ret.
  repeat case_bool_decide; simpl; try rewrite isinstance_http_error; try reflexivity.
  destruct (content r) as [B|msg|e]; simpl; try reflexivity.
  destruct (isinstance e json_JSONDecodeError); simpl; [reflexivity|].
  by destruct (isinstance e RequestException).
Qed.

(** What [Response.json] does is a function of the response alone. *)
Lemma json_fst r w1 w2 : fst (Requests.json r w1) = fst (Requests.json r w2).
Proof.
  unfold Requests.json, raise, ret.
  destruct (content r) as [B|msg|e]; try reflexivity.
  by destruct (isinstance e json_JSONDecodeError).
Qed.


(** A GET for [/data], run in any world. *)
Lemma wsgi_app_data_run a h w :
  wsgi_app app (get_request "/data" a h) w =
    (match fst (get_data w) with
     | Ok rv => Ok (make_response rv)
     | Raise e => Raise e
     end, after_one_get w).
Proof.
  rewrite wsgi_app_data. unfold bind.
  destruct (get_data w) as [o w'] eqn:Hrun.
  rewrite get_data_run in Hrun. injection Hrun as <- <-.
  simpl. match goal with |- context [match ?o with Ok _ => _ | Raise _ => _ end] =>
    destruct o end; reflexivity.
Qed.

(** What [raise_for_status] does is a function of the response alone. *)
Lemma raise_for_status_fst r w1 w2 :
  fst (Requests.raise_for_status r w1) = fst (Requests.raise_for_status r w2).
Proof.
  destruct (Requests.raise_for_status r w1) as [o w1'] eqn:H.
  apply raise_for_status_pure in H as [_ H]. by rewrite H.
Qed.

Lemma raise_for_status_error_status r w :
  400 <= status_code r < 600 ->
  Requests.raise_for_status r w =
    (Raise {| exc_type := HTTPError;
              exc_text := pretty (status_code r)
                          +:+ (if bool_decide (status_code r < 500)
                               then " Client Error: " else " Server Error: ")
                          +:+ reason r +:+ " for url: " +:+ url r |}, w).
Proof.
  intros H. unfold Requests.raise_for_status, raise.
  destruct (decide (status_code r < 500)).
  - by rewrite !bool_decide_eq_true_2 by lia.
  - rewrite bool_decide_eq_false_2, bool_decide_eq_true_2 by lia.
    by rewrite bool_decide_eq_false_2 by lia.
Qed.

Lemma raise_for_status_other_status r w :
  ~ (400 <= status_code r < 600) -> Requests.raise_for_status r w = (Ok tt, w).
Proof.
  intros H. unfold Requests.raise_for_status.
  rewrite !bool_decide_eq_false_2 by lia. reflexivity.
Qed.

(** X1. On every path through [get_data], whatever the upstream does, the
    view calls [requests.get] exactly once, with the fixed URL: it never
    skips the call and never makes a second one. (The log counts calls of the
    library; the redirects a call follows are inside it.) *)
Theorem get_data_sends_exactly_one_request (w : world) (a h : list (string * string)) :
  snd (get_data w) = after_one_get w
  /\ snd (wsgi_app app (get_request "/data" a h) w) = after_one_get w
  /\ sent (snd (wsgi_app app (get_request "/data" a h) w)) = sent w ++ [data_url]
  /\ net (snd (wsgi_app app (get_request "/data" a h) w)) = net w.
Proof.
  rewrite wsgi_app_data_run, get_data_run. repeat split.
Qed.



(** X4. An exception of the outbound GET that is not an instance of
    [RequestException] is not handled by [get_data]: it leaves the view and
    the application, after the one request was sent, and no JSON error body is
    produced. *)
Theorem get_data_foreign_exception_propagates (w : world) (e : pyexc)
    (a h : list (string * string)) :
  net w (length (sent w)) data_url = Raise e ->
  isinstance e RequestException = false ->
  get_data w = (Raise e, after_one_get w)
  /\ wsgi_app app (get_request "/data" a h) w = (Raise e, after_one_get w).
Proof.
  intros Hnet Hcls. rewrite wsgi_app_data_run, get_data_run, Hnet, Hcls. done.
Qed.

(** X4 at an interrupt during the outbound call. *)
Lemma get_data_foreign_exception_propagates_witness :
  wsgi_app app (get_request "/data" [] []) (always (Raise interrupted)) =
    (Raise interrupted, after_one_get (always (Raise interrupted))).
Proof.
  apply (get_data_foreign_exception_propagates (always (Raise interrupted)) interrupted);
    reflexivity.
Defined.

(** X5. The response to [GET /data] depends on nothing but the outcome of
    the outbound call this request makes: two requests, with any query
    parameters and headers, in worlds with any history, get the same result
    when their upstream calls have the same outcome. *)
Theorem get_data_depends_only_on_its_upstream_call (w1 w2 : world)
    (a1 h1 a2 h2 : list (string * string)) :
  net w1 (length (sent w1)) data_url = net w2 (length (sent w2)) data_url ->
  fst (wsgi_app app (get_request "/data" a1 h1) w1) =
  fst (wsgi_app app (get_request "/data" a2 h2) w2).
Proof.
  intros H. rewrite !wsgi_app_data_run, !get_data_run, H. simpl.
  destruct (net w2 (length (sent w2)) data_url) as [r|e]; [|reflexivity].
  by rewrite (raise_for_status_fst r w1 w2), (json_fst r w1 w2).
Qed.

(** X5 at two worlds with different histories, and two different requests. *)
Lemma get_data_depends_only_on_its_upstream_call_witness :
  fst (wsgi_app app (get_request "/data" [("page", "2")] [])
         (after_one_get (first_then (Raise refused) (Ok upstream_ok)))) =
  fst (wsgi_app app (get_request "/data" [] [("Accept", "text/html")])
         (always (Ok upstream_ok))).
Proof.
  apply (get_data_depends_only_on_its_upstream_call
           (after_one_get (first_then (Raise refused) (Ok upstream_ok)))
           (always (Ok upstream_ok))).
  reflexivity.
Defined.

(** X6. On a 4xx or 5xx status of the upstream, the response is 500 with
    the error text [<status> Client Error: <reason> for url: <url>] (4xx) or
    [<status> Server Error: ...] (5xx); the body of the upstream response is
    not looked at: another upstream response with the same status, reason and
    URL gives the same answer, whether its body is JSON or not. *)
Theorem get_data_error_status_ignores_body (w w' : world) (r r' : Response)
    (a h : list (string * string)) :
  net w (length (sent w)) data_url = Ok r ->
  net w' (length (sent w')) data_url = Ok r' ->
  status_code r' = status_code r ->
  reason r' = reason r ->
  url r' = url r ->
  400 <= status_code r < 600 ->
  fst (wsgi_app app (get_request "/data" a h) w) =
    Ok {| status := 500;
          body := JsonPayload (PDict {[ "error" :=
            PStr (pretty (status_code r)
                  +:+ (if bool_decide (status_code r < 500)
                       then " Client Error: " else " Server Error: ")
                  +:+ reason r +:+ " for url: " +:+ url r) ]}) |}
  /\ fst (wsgi_app app (get_request "/data" a h) w') =
     fst (wsgi_app app (get_request "/data" a h) w).
Proof.
  intros Hnet Hnet' Hcode Hreason Hurl Hst.
  rewrite !wsgi_app_data_run, !get_data_run, Hnet, Hnet'.
  rewrite !raise_for_status_error_status by lia. simpl.
  by rewrite Hcode, Hreason, Hurl.
Qed.

(** X6 at a 503 with a JSON document and the same 503 with a body that is
    not JSON. *)
Lemma get_data_error_status_ignores_body_witness :
  fst (wsgi_app app (get_request "/data" [] []) (always (Ok upstream_unavailable))) =
    Ok {| status := 500;
          body := JsonPayload (PDict {[ "error" :=
            PStr "503 Server Error: Service Unavailable for url: https://api.example.com/data" ]}) |}
  /\ fst (wsgi_app app (get_request "/data" [] []) (always (Ok upstream_unavailable_html))) =
     fst (wsgi_app app (get_request "/data" [] []) (always (Ok upstream_unavailable))).
Proof.
  apply (get_data_error_status_ignores_body
           (always (Ok upstream_unavailable)) (always (Ok upstream_unavailable_html))
           upstream_unavailable upstream_unavailable_html);
    first [reflexivity | simpl; lia].
Defined.



(** X12. [Response.json] lets through every exception of the decoder but
    its [JSONDecodeError], and [get_data] handles request exceptions only:
    when the upstream response has a status outside 400..599 and the decoder
    raises an exception that is neither, it leaves the view and the
    application, and no JSON error body is produced. *)
Theorem get_data_decoder_exception_propagates (w : world) (r : Response) (e : pyexc)
    (a h : list (string * string)) :
  net w (length (sent w)) data_url = Ok r ->
  ~ (400 <= status_code r < 600) ->
  content r = Overwhelms e ->
  isinstance e json_JSONDecodeError = false ->
  isinstance e RequestException = false ->
  get_data w = (Raise e, after_one_get w)
  /\ wsgi_app app (get_request "/data" a h) w = (Raise e, after_one_get w).
Proof.
  intros Hnet Hst HB Hjson Hcls.
  rewrite wsgi_app_data_run, get_data_run, Hnet.
  rewrite raise_for_status_other_status by done. simpl.
  unfold Requests.json. rewrite HB, Hjson. simpl. by rewrite Hcls.
Qed.

(** X12 at a 200 response that starts with an integer of 5000 digits. *)
Lemma get_data_decoder_exception_propagates_witness :
  wsgi_app app (get_request "/data" [] []) (always (Ok upstream_too_long)) =
    (Raise too_long, after_one_get (always (Ok upstream_too_long))).
Proof.
  refine (proj2 (get_data_decoder_exception_propagates
                   (always (Ok upstream_too_long)) upstream_too_long too_long
                   [] [] _ _ _ _ _));
    first [reflexivity | simpl; lia].
Defined.

(** * Further properties of the envelope *)

(** The envelope is one level deeper than its payload. *)
Lemma depth_format_response X : depth (format_response X) = S (depth X).
Proof.
  rewrite format_response_unfold.
  change (S (map_fold (fun _ x acc => Nat.max (depth x) acc) 0%nat
               (<["status" := PStr "success"]>
                (<["data" := X]>
                 (<["timestamp" := PStr "2024-01-01T00:00:00Z"]>
                  (∅ : gmap string pyval)))))
          = S (depth X)).
  rewrite !map_fold_insert_L, map_fold_empty;
    first [by simplify_map_eq | intros; simpl; lia].
Qed.

Lemma depth_iter_format_response n X :
  depth (Nat.iter n format_response X) = (n + depth X)%nat.
Proof.
  induction n as [|n IH]; [reflexivity|].
  change (Nat.iter (S n) format_response X)
    with (format_response (Nat.iter n format_response X)).
  by rewrite depth_format_response, IH.
Qed.

(** X8. The envelope loses nothing: two payloads have the same envelope,
    from [format_response] or from [process] on any processor, exactly when
    they are equal. *)
Theorem format_response_injective (C : Type) (self : DataProcessor C) (X Y : pyval) :
  (format_response X = format_response Y <-> X = Y)
  /\ (process self X = process self Y <-> X = Y).
Proof.
  unfold process. assert (H : format_response X = format_response Y -> X = Y).
  { intros H. apply (f_equal (fun v => getitem v "data")) in H.
    rewrite !format_response_getitem in H. simpl in H. congruence. }
  split; (split; [exact H | by intros ->]).
Qed.

(** X9. Each call of [format_response] adds exactly one level of nesting:
    the [n]-fold envelope of [X] is [n] levels deeper than [X], so wrapping
    [n] times and wrapping [m] times give the same value only when
    [n = m]. *)
Theorem format_response_iterates_are_distinct (n m : nat) (X : pyval) :
  depth (Nat.iter n format_response X) = (n + depth X)%nat
  /\ (Nat.iter n format_response X = Nat.iter m format_response X <-> n = m).
Proof.
  split; [apply depth_iter_format_response|]. split; [|by intros ->].
  intros H. apply (f_equal depth) in H.
  rewrite !depth_iter_format_response in H. lia.
Qed.
